(** * Verification of the service-account provisioning script (proj.py)

    The script is a straight-line sequence of calls to an external cluster
    tool (kubectl).  It is embedded here as a program in a small
    state-and-exception monad:

    - the cluster and the tool are an opaque world [W] with a transition
      function [exec] playing [subprocess.run];
    - the working directory is a finite map from file names to the documents
      written there;
    - standard output is the list of lines printed so far;
    - every call of the external tool is recorded, with the files visible at
      that moment and the result the tool gave, so that statements about the
      order of the calls can be made.

    Python's [SystemExit] is an exception, and Step 1 of the script catches
    it; the embedding keeps that: [sys.exit] raises, [try_except] catches.

    What is taken for granted: the tool can be started (so [subprocess.run]
    raises nothing but [CalledProcessError]), the tool itself writes no file
    in the working directory, and text is made of code points below 256.
    Whether a file can be opened for writing is a matter of the host: it is a
    parameter of the script, [writable], fixed for the length of a run.  The
    text that [yaml.dump] writes is not spelled out: a file holds the
    document dumped into it, its keys in the sorted order [yaml.dump] gives
    them.  The splitting of the argument vector done by [argparse] is library
    work and is not spelled out either: the parser receives the value given
    for each option. *)

From Stdlib Require Import ZArith List String Ascii Bool Lia.
From stdpp Require Import base strings gmap.

Import ListNotations.
Local Open Scope string_scope.
Local Open Scope list_scope.
Local Open Scope Z_scope.

(** ** Text *)

Module Text.

(** [sep.join(parts)] *)
Fixpoint join (sep : string) (parts : list string) : string :=
match parts with
| [] => ""
| [p] => p
| p :: rest => p +:+ sep +:+ join sep rest
end.

(** [str.isspace] on one character.  Characters are code points below 256;
  among those Python counts as white space 9-13, 28-32, 133 and 160. *)
Definition isspace (c : ascii) : bool :=
let n := nat_of_ascii c in
((9 <=? n) && (n <=? 13) || (28 <=? n) && (n <=? 32)
 || (n =? 133) || (n =? 160))%nat.

(** [str.lstrip()] *)
Fixpoint lstrip (s : string) : string :=
match s with
| String c rest => if isspace c then lstrip rest else s
| EmptyString => EmptyString
end.

(** [str.rstrip()]: a character is dropped when it is white space and
  everything to its right has been dropped. *)
Fixpoint rstrip (s : string) : string :=
match s with
| String c rest =>
    match rstrip rest with
    | EmptyString => if isspace c then EmptyString else String c EmptyString
    | kept => String c kept
    end
| EmptyString => EmptyString
end.

(** [str.strip()] *)
Definition strip (s : string) : string := rstrip (lstrip s).

End Text.

(** ** Python values

    The only structured value of the script is the secret descriptor, a
    dictionary of strings and dictionaries.  A dictionary keeps its items in
    insertion order. *)

#[warnings="-register-all"]
Inductive py_value : Type :=
| PyStr (s : string)
| PyDict (items : list (string * py_value)).

Fixpoint assoc (k : string) (items : list (string * py_value)) : option py_value :=
  match items with
  | [] => None
  | (k', v) :: rest => if String.eqb k k' then Some v else assoc k rest
  end.

(** [d[k]] *)
Definition dict_get (k : string) (d : py_value) : option py_value :=
  match d with
  | PyDict items => assoc k items
  | PyStr _ => None
  end.


(** [sorted(mapping.items())], one item at a time: keys are compared as
    Python compares strings, code point by code point. *)
Fixpoint insert_item (k : string) (v : py_value)
    (items : list (string * py_value)) : list (string * py_value) :=
  match items with
  | [] => [(k, v)]
  | (k', v') :: rest =>
      if String.leb k k' then (k, v) :: items
      else (k', v') :: insert_item k v rest
  end.

(** The document as [yaml.dump] writes it (with its default
    [sort_keys=True]): every mapping with its keys sorted. *)
Fixpoint yaml_document (doc : py_value) : py_value :=
  match doc with
  | PyStr s => PyStr s
  | PyDict items =>
      PyDict
        ((fix sorted (l : list (string * py_value)) :=
            match l with
            | [] => []
            | (k, v) :: rest => insert_item k (yaml_document v) (sorted rest)
            end) items)
  end.

(** ** The external tool and the state of a run *)

(** What [subprocess.run(cmd, capture_output=True, text=True)] reports. *)
Record CompletedProcess : Type := mkCompleted {
  returncode : Z;
  stdout : string;
  stderr : string
}.

(** One call of the external tool: the argument vector, the files of the
    working directory at the moment of the call, and what came back. *)
Record call : Type := mkCall {
  c_cmd : list string;
  c_files : gmap string py_value;
  c_result : CompletedProcess
}.

Inductive exn : Type :=
| SystemExit (code : Z)
| CalledProcessError (cmd : list string) (r : CompletedProcess)
| FileNotFoundError (path : string)
| OSError (path : string).

Inductive outcome (A : Type) : Type :=
| Ret (a : A)
| Raise (e : exn).
Arguments Ret {A} a.
Arguments Raise {A} e.

Record state (W : Type) : Type := mkState {
  world : W;
  files : gmap string py_value;
  out : list string;
  calls : list call
}.
Arguments mkState {W}.
Arguments world {W}.
Arguments files {W}.
Arguments out {W}.
Arguments calls {W}.

(** The external tool: it sees its arguments and the working directory,
    changes the cluster, and never writes to the working directory. *)
Definition tool (W : Type) : Type :=
  list string -> gmap string py_value -> W -> CompletedProcess * W.

Definition M (W A : Type) : Type := state W -> outcome A * state W.

Definition initial {W : Type} (w : W) (fs : gmap string py_value) : state W :=
  mkState w fs [] [].

(** The status the operating system sees when the interpreter stops. *)
Definition exit_status {A : Type} (o : outcome A) : Z :=
  match o with
  | Ret _ => 0
  | Raise (SystemExit code) => code
  | Raise _ => 1
  end.

Declare Scope prog_scope.
Delimit Scope prog_scope with prog.

Section Monad.
Context {W : Type}.

Definition ret {A : Type} (a : A) : M W A := fun s => (Ret a, s).

Definition bind {A B : Type} (m : M W A) (k : A -> M W B) : M W B :=
  fun s =>
    match m s with
    | (Ret a, s') => k a s'
    | (Raise e, s') => (Raise e, s')
    end.

Definition raise {A : Type} (e : exn) : M W A := fun s => (Raise e, s).

(** [try: body  except <class> as e: handler e]; [handler e] is [None]
    when [e] is not of the class named in the [except] clause. *)
Definition try_except {A : Type} (body : M W A)
    (handler : exn -> option (M W A)) : M W A :=
  fun s =>
    match body s with
    | (Ret a, s') => (Ret a, s')
    | (Raise e, s') =>
        match handler e with
        | Some h => h s'
        | None => (Raise e, s')
        end
    end.

(** [print(line)] *)
Definition print (line : string) : M W unit :=
  fun s => (Ret tt, mkState (world s) (files s) (out s ++ [line]) (calls s)).

(** [sys.exit(code)] *)
Definition sys_exit {A : Type} (code : Z) : M W A := raise (SystemExit code).

(** [with open(path, "w") as f: yaml.dump(doc, f)]: when the host lets the
    file be opened, it then holds the YAML document of [doc]; when it does
    not (a directory of the path is missing, the path is a directory, the
    permission is lacking), [open] raises an [OSError] and nothing is
    written. *)
Definition yaml_dump_to (writable : string -> bool) (path : string)
    (doc : py_value) : M W unit :=
  fun s =>
    if writable path
    then (Ret tt,
          mkState (world s) (<[path := yaml_document doc]> (files s)) (out s)
            (calls s))
    else (Raise (OSError path), s).

(** [os.remove(path)] *)
Definition os_remove (path : string) : M W unit :=
  fun s =>
    match files s !! path with
    | Some _ =>
        (Ret tt, mkState (world s) (delete path (files s)) (out s) (calls s))
    | None => (Raise (FileNotFoundError path), s)
    end.

End Monad.

Notation "x <- c1 ;; c2" := (bind c1 (fun x => c2))
  (at level 100, c1 at next level, right associativity) : prog_scope.
Notation "c1 ;; c2" := (bind c1 (fun _ => c2))
  (at level 100, right associativity) : prog_scope.

(** ** The script *)

Section Script.
Context {W : Type} (exec : tool W) (writable : string -> bool).

Local Open Scope prog_scope.

(** [subprocess.run(cmd, check=True, capture_output=True, text=True)]:
    the tool runs, the call is recorded, and a non-zero return code raises
    [CalledProcessError]. *)
Definition subprocess_run_check (cmd : list string) : M W CompletedProcess :=
  fun s =>
    let '(r, w') := exec cmd (files s) (world s) in
    let s' := mkState w' (files s) (out s)
                (calls s ++ [mkCall cmd (files s) r]) in
    if returncode r =? 0 then (Ret r, s')
    else (Raise (CalledProcessError cmd r), s').

(** proj.py, lines 8-16 *)
Definition run_command (cmd : list string) : M W string :=
  try_except
    (result <- subprocess_run_check cmd ;;
     ret (Text.strip (stdout result)))
    (fun e =>
       match e with
       | CalledProcessError _ r =>
           Some (print ("Error running command: " +:+ Text.join " " cmd) ;;
                 print (Text.strip (stderr r)) ;;
                 sys_exit 1)
       | _ => None
       end).

(** line 22 *)
Definition dry_run_flag (dry_run : bool) : list string :=
  if dry_run then ["--dry-run=client"] else [].

(** line 26 *)
Definition ensure_namespace_cmd (namespace : string) : list string :=
  ["kubectl"; "get"; "namespace"; namespace].

(** line 31 *)
Definition create_ns_cmd (namespace : string) (dry_run : bool) : list string :=
  ["kubectl"; "create"; "namespace"; namespace] ++ dry_run_flag dry_run.

(** line 37 *)
Definition create_sa_cmd (username namespace : string) (dry_run : bool)
    : list string :=
  ["kubectl"; "create"; "serviceaccount"; username; "--namespace"; namespace]
  ++ dry_run_flag dry_run.

(** lines 43-47 *)
Definition bind_role_cmd (username role namespace : string) (dry_run : bool)
    : list string :=
  ["kubectl"; "create"; "rolebinding"; username +:+ "-" +:+ role +:+ "-binding";
   "--clusterrole"; role;
   "--serviceaccount=" +:+ namespace +:+ ":" +:+ username;
   "--namespace"; namespace]
  ++ dry_run_flag dry_run.

(** line 53 *)
Definition secret_name (username : string) : string := username +:+ "-token".

(** lines 54-65 *)
Definition secret_yaml (username namespace : string) : py_value :=
  PyDict
    [("apiVersion", PyStr "v1");
     ("kind", PyStr "Secret");
     ("metadata",
      PyDict
        [("name", PyStr (secret_name username));
         ("namespace", PyStr namespace);
         ("annotations",
          PyDict [("kubernetes.io/service-account.name", PyStr username)])]);
     ("type", PyStr "kubernetes.io/service-account-token")].

(** line 67 *)
Definition secret_file (username : string) : string :=
  secret_name username +:+ ".yaml".

(** line 73 *)
Definition create_secret_cmd (username : string) (dry_run : bool)
    : list string :=
  ["kubectl"; "apply"; "-f"; secret_file username] ++ dry_run_flag dry_run.

(** The [except SystemExit:] clause of line 30. *)
Definition except_SystemExit {A : Type} (h : M W A) (e : exn)
    : option (M W A) :=
  match e with
  | SystemExit _ => Some h
  | _ => None
  end.

(** proj.py, lines 19-79 *)
Definition create_service_account (username role namespace : string)
    (dry_run : bool) : M W unit :=
  (* Step 1 *)
  print ("Ensuring namespace '" +:+ namespace +:+ "' exists...") ;;
  try_except
    (run_command (ensure_namespace_cmd namespace) ;;
     print ("Namespace '" +:+ namespace +:+ "' already exists."))
    (except_SystemExit
       (run_command (create_ns_cmd namespace dry_run) ;;
        print ("Namespace '" +:+ namespace +:+ "' created successfully."))) ;;
  (* Step 2 *)
  print ("Creating service account '" +:+ username +:+ "' in namespace '"
         +:+ namespace +:+ "'...") ;;
  run_command (create_sa_cmd username namespace dry_run) ;;
  print ("Service account '" +:+ username +:+ "' created successfully.") ;;
  (* Step 3 *)
  print ("Binding service account '" +:+ username +:+ "' to role '"
         +:+ role +:+ "'...") ;;
  run_command (bind_role_cmd username role namespace dry_run) ;;
  print ("Service account '" +:+ username +:+ "' bound to role '"
         +:+ role +:+ "' successfully.") ;;
  (* Step 4 *)
  print ("Creating a secret for the service account '" +:+ username
         +:+ "'...") ;;
  yaml_dump_to writable (secret_file username)
    (secret_yaml username namespace) ;;
  print ("Generated secret YAML file: " +:+ secret_file username) ;;
  run_command (create_secret_cmd username dry_run) ;;
  print ("Secret '" +:+ secret_name username +:+ "' created in namespace '"
         +:+ namespace +:+ "' successfully.") ;;
  if negb dry_run then os_remove (secret_file username) else ret tt.

(** *** The command line (lines 82-95)

    [argparse] splits the argument vector; what it hands to the
    declarations of lines 84-92 is, for each option, the value given on the
    command line, if any.  The command lines considered are those [argparse]
    reads to the end as options of lines 84-92: one that asks for the help
    text, one with an argument the parser does not know, and one with an
    option left without its value are stopped by [argparse] itself (with
    status 0 for the help, 2 otherwise) and are not described by [cli]. *)

Record cli : Type := mkCli {
  cli_username : option string;
  cli_role : option string;
  cli_namespace : option string;
  cli_dry_run : bool
}.

(** line 88 *)
Definition choices : list string :=
  ["product-team-role"; "lead-developer-team-role"; "cs-team-role"; "operator"].

Record Namespace : Type := mkNamespace {
  args_username : string;
  args_role : string;
  args_namespace : string;
  args_dry_run : bool
}.

(** [parser.parse_args()]: a value outside [choices] and a missing required
    option both end in [parser.error], which exits with status 2. *)
Definition parse_args (c : cli) : M W Namespace :=
  match cli_role c with
  | Some role =>
      if negb (existsb (String.eqb role) choices) then sys_exit 2
      else
        match cli_username c with
        | Some username =>
            ret (mkNamespace username role
                   (default "staging" (cli_namespace c)) (cli_dry_run c))
        | None => sys_exit 2
        end
  | None => sys_exit 2
  end.

Definition main (c : cli) : M W unit :=
  args <- parse_args c ;;
  create_service_account (args_username args) (args_role args)
    (args_namespace args) (args_dry_run args).

End Script.

(** ** Reading the record of calls *)






(** [kubectl create namespace ...] *)
Definition is_create_namespace (cmd : list string) : bool :=
  String.eqb (nth 1%nat cmd EmptyString) "create"
  && String.eqb (nth 2%nat cmd EmptyString) "namespace".

(** The annotation mapping of a secret descriptor: [doc["metadata"]["annotations"]]. *)
Definition annotations (doc : py_value) : option py_value :=
  match dict_get "metadata" doc with
  | Some meta => dict_get "annotations" meta
  | None => None
  end.

(** ** Concrete clusters

    Small stand-ins for the external tool, used to run the script. *)

Module Clusters.

Definition ok : CompletedProcess := mkCompleted 0 EmptyString EmptyString.

Definition failed (msg : string) : CompletedProcess :=
  mkCompleted 1 EmptyString msg.

Definition verb (cmd : list string) : string := nth 1%nat cmd EmptyString.
Definition kind (cmd : list string) : string := nth 2%nat cmd EmptyString.
Definition name (cmd : list string) : string := nth 3%nat cmd EmptyString.

(** A tool whose answer depends on the command only. *)
Definition stateless (answer : list string -> CompletedProcess) : tool unit :=
  fun cmd _ _ => (answer cmd, tt).

(** Everything succeeds: the namespace is there, nothing else is. *)
Definition ready : tool unit := stateless (fun _ => ok).

(** The world is the list of namespaces; a query fails on a missing one,
    and a creation without the simulate-only option adds it. *)
Definition fresh : tool (list string) :=
  fun cmd _ namespaces =>
    if String.eqb (kind cmd) "namespace" then
      if String.eqb (verb cmd) "get" then
        if existsb (String.eqb (name cmd)) namespaces then (ok, namespaces)
        else (failed ("Error from server (NotFound): namespaces " +:+ name cmd
                      +:+ " not found" +:+ String "010" EmptyString),
              namespaces)
      else if existsb (String.eqb "--dry-run=client") cmd then (ok, namespaces)
      else (ok, name cmd :: namespaces)
    else (ok, namespaces).


(** The service account is already there. *)
Definition account_taken : tool unit :=
  stateless (fun cmd =>
    if String.eqb (kind cmd) "serviceaccount"
    then failed "error: failed to create serviceaccount: already exists"
    else ok).

(** The namespace is missing and may not be created. *)
Definition forbidden : tool unit :=
  stateless (fun cmd =>
    if String.eqb (kind cmd) "namespace"
    then failed "Error from server (Forbidden)"
    else ok).

(** The secret is refused; everything before it is let through. *)
Definition apply_refused : tool unit :=
  stateless (fun cmd =>
    if String.eqb (verb cmd) "apply"
    then failed "error: unable to apply the secret"
    else ok).

End Clusters.

(** ** Concrete hosts *)

Module Directories.

(** Every file can be opened for writing. *)
Definition anywhere : string -> bool := fun _ => true.

Fixpoint has_slash (path : string) : bool :=
  match path with
  | EmptyString => false
  | String c rest => Ascii.eqb c "/" || has_slash rest
  end.

(** A working directory without sub-directories: a file can be opened for
    writing when its path names no directory. *)
Definition flat : string -> bool := fun path => negb (has_slash path).

End Directories.

Definition alice_run {W : Type} (exec : tool W) (w : W) (dry_run : bool)
    : outcome unit * state W :=
  create_service_account exec Directories.anywhere
    "alice" "operator" "staging" dry_run (initial w ∅).

(** The two lines [run_command] prints for a failed call. *)
Definition error_report (c : call) : list string :=
  ["Error running command: " +:+ Text.join " " (c_cmd c);
   Text.strip (stderr (c_result c))].

(** Text that begins, or ends, with white space. *)
Definition starts_with_space (s : string) : bool :=
  match s with
  | String c _ => Text.isspace c
  | EmptyString => false
  end.

Fixpoint ends_with_space (s : string) : bool :=
  match s with
  | EmptyString => false
  | String c EmptyString => Text.isspace c
  | String _ rest => ends_with_space rest
  end.

(** * Properties *)

Section Properties.
Context {W : Type} (exec : tool W) (writable : string -> bool).

Implicit Types (username role namespace : string) (dry_run : bool).
Implicit Types (s : state W) (w : W) (fs : gmap string py_value).

(** [run_command] in one piece: the call is recorded; on return code zero
    the stripped standard output is returned, otherwise the two lines of
    the report are printed and [SystemExit(1)] is raised. *)
Lemma run_command_unfold (cmd : list string) s :
  run_command exec cmd s =
  let '(r, w') := exec cmd (files s) (world s) in
  let c := mkCall cmd (files s) r in
  if returncode r =? 0
  then (Ret (Text.strip (stdout r)),
        mkState w' (files s) (out s) (calls s ++ [c]))
  else (Raise (SystemExit 1),
        mkState w' (files s) (out s ++ error_report c) (calls s ++ [c])).
Proof.
  unfold run_command, try_except, bind, subprocess_run_check.
  destruct (exec cmd (files s) (world s)) as [r w'].
  destruct (returncode r =? 0); cbn; [reflexivity|].
  unfold error_report; cbn. rewrite <- app_assoc. reflexivity.
Qed.

Lemma append_assoc (a b c : string) : (a +:+ b) +:+ c = a +:+ (b +:+ c).
Proof.
  induction a as [|x a IH]; [reflexivity|].
  change (String x ((a +:+ b) +:+ c) = String x (a +:+ b +:+ c)).
  f_equal. exact IH.
Qed.

(** line 67, with line 53 put in *)
Lemma secret_file_name username : secret_file username = username +:+ "-token.yaml".
Proof. unfold secret_file, secret_name. apply append_assoc. Qed.

Lemma existsb_eqb_In (x : string) (l : list string) :
  existsb (String.eqb x) l = true <-> In x l.
Proof.
  rewrite existsb_exists. split.
  - intros [y [Hy Heq]]. apply String.eqb_eq in Heq. now subst.
  - intros Hin. exists x. split; [assumption | apply String.eqb_refl].
Qed.

Lemma ends_with_here {A : Type} (e : list A) : exists p, e = p ++ e.
Proof. exists []. reflexivity. Qed.

Lemma ends_with_cons {A : Type} (x : A) (l e : list A) :
  (exists p, l = p ++ e) -> exists p, x :: l = p ++ e.
Proof. intros [p ->]. exists (x :: p). reflexivity. Qed.

Lemma ends_with_app {A : Type} (k l e : list A) :
  (exists p, l = p ++ e) -> exists p, k ++ l = p ++ e.
Proof. intros [p ->]. exists (k ++ p). apply app_assoc. Qed.

Ltac ends_with :=
  repeat first [ apply ends_with_here
               | apply ends_with_cons
               | apply ends_with_app ].

(** Find the place of a call in a recorded list: one goal per position. *)
Ltac locate H :=
  lazymatch type of H with
  | [] = ?b ++ _ :: _ => destruct b; discriminate H
  | _ :: _ = ?b ++ _ :: _ =>
      destruct b as [|? b]; cbn [app] in H;
      [ injection H as <- <- | injection H as <- H; locate H ]
  end.

(** From a statement about every recorded call to one fact per call. *)
Ltac each_call H :=
  apply List.Forall_forall in H;
  repeat (apply Forall_cons_iff in H;
          let Hc := fresh "Hc" in
          destruct H as [Hc H]; cbn [c_cmd c_result c_files] in Hc);
  clear H.

(** Two commands of the script that differ in a fixed word. *)
Ltac other_command :=
  let Heq := fresh "Heq" in
  intros Heq;
  cbv [ensure_namespace_cmd create_ns_cmd create_sa_cmd bind_role_cmd
       create_secret_cmd] in Heq;
  cbn [app] in Heq; discriminate Heq.

Ltac run_call :=
  rewrite run_command_unfold; cbn [files world out calls];
  match goal with
  | |- context [exec ?c ?f ?w] =>
      let r := fresh "r" in
      let w' := fresh "w" in
      let E := fresh "E" in
      destruct (exec c f w) as [r w'] eqn:E; cbn zeta;
      let Hr := fresh "Hr" in
      destruct (returncode r =? 0) eqn:Hr
  end.

Ltac script_simp :=
  cbn [except_SystemExit files world out calls app negb].

Ltac finish_script :=
  try match goal with
    | |- context [negb ?d] => is_var d; destruct d; script_simp
    end;
  rewrite ?lookup_insert_eq, ?delete_insert_eq.


Ltac write_call :=
  match goal with
  | |- context [writable ?p] =>
      let Hw := fresh "Hw" in destruct (writable p) eqn:Hw
  end.

Ltac run_script :=
  unfold create_service_account, initial, bind, try_except, print,
    yaml_dump_to, os_remove, ret, sys_exit, raise;
  script_simp; repeat (first [run_call | write_call]; script_simp);
  finish_script.

Ltac return_codes :=
  repeat match goal with
    | H : (returncode _ =? 0) = true |- _ => apply Z.eqb_eq in H
    | H : (returncode _ =? 0) = false |- _ => apply Z.eqb_neq in H
    end.

Ltac end_of_run H :=
  intros H; injection H as <- <-; script_simp; return_codes.

(** C5. The first call is always the namespace query, [kubectl get
    namespace].  When it exits non-zero the next call is [kubectl create
    namespace] for the same namespace, and when that one succeeds the run
    goes on to the service account; when the query exits zero no
    create-namespace command is issued in the whole run. *)
Theorem namespace_created_iff_query_fails
    username role namespace dry_run w fs o s' :
  create_service_account exec writable username role namespace dry_run
    (initial w fs) = (o, s') ->
  exists q rest,
    calls s' = q :: rest
    /\ c_cmd q = ["kubectl"; "get"; "namespace"; namespace]
    /\ (returncode (c_result q) <> 0 ->
        exists c rest',
          rest = c :: rest'
          /\ c_cmd c
             = ["kubectl"; "create"; "namespace"; namespace]
               ++ (if dry_run then ["--dry-run=client"] else [])
          /\ is_create_namespace (c_cmd c) = true
          /\ (returncode (c_result c) = 0 ->
              exists c' rest'',
                rest' = c' :: rest''
                /\ c_cmd c'
                   = ["kubectl"; "create"; "serviceaccount"; username;
                      "--namespace"; namespace]
                     ++ (if dry_run then ["--dry-run=client"] else [])))
    /\ (returncode (c_result q) = 0 ->
        Forall (fun c => is_create_namespace (c_cmd c) = false) (q :: rest)).
Proof.
  run_script; end_of_run H.
  all: eexists; eexists; split; [reflexivity|]; split; [reflexivity|].
  all: cbn [c_result c_cmd]; split; intros Hq; try contradiction.
  all: try (repeat constructor; reflexivity).
  all: eexists; eexists; split; [reflexivity|]; split; [reflexivity|].
  all: split; [reflexivity|].
  all: cbn [c_result]; intros Hc; try contradiction.
  all: eexists; eexists; split; reflexivity.
Qed.

(** C2. A call other than the namespace query that returns non-zero is the
    last call of the run: nothing is recorded after it, the files are as
    they were at the call, the last lines printed are the failing command
    line and the tool's error text, and the run ends in [SystemExit(1)],
    so the process reports status 1. *)
Theorem failed_call_terminates_run
    username role namespace dry_run w fs o s' before c after :
  create_service_account exec writable username role namespace dry_run
    (initial w fs) = (o, s') ->
  calls s' = before ++ c :: after ->
  c_cmd c <> ensure_namespace_cmd namespace ->
  returncode (c_result c) <> 0 ->
  after = []
  /\ o = Raise (SystemExit 1)
  /\ exit_status o = 1
  /\ files s' = c_files c
  /\ exists printed, out s' = printed ++ error_report c.
Proof.
  run_script; end_of_run H; intros Hlog; locate Hlog.
  all: cbn [c_cmd c_result c_files]; intros Hcmd Hcode.
  all: try contradiction; try (exfalso; apply Hcmd; reflexivity).
  all: repeat split; ends_with.
Qed.

(** C10. A failed namespace query is not silent: right after the progress
    line of Step 1 the run prints the command line of the query and the
    query's error text, and then goes on to create the namespace. *)
Theorem query_failure_is_reported
    username role namespace dry_run w fs o s' q rest :
  create_service_account exec writable username role namespace dry_run
    (initial w fs) = (o, s') ->
  calls s' = q :: rest ->
  returncode (c_result q) <> 0 ->
  (exists later,
     out s' = ("Ensuring namespace '" +:+ namespace +:+ "' exists...")
              :: error_report q ++ later)
  /\ error_report q
     = ["Error running command: kubectl get namespace " +:+ namespace;
        Text.strip (stderr (c_result q))]
  /\ exists c rest', rest = c :: rest' /\ c_cmd c = create_ns_cmd namespace dry_run.
Proof.
  run_script; end_of_run H; intros Hlog; injection Hlog as <- <-.
  all: cbn [c_result]; intros Hcode; try contradiction.
  all: split; [|split; [reflexivity | eauto]].
  all: eexists; cbn [app error_report]; reflexivity.
Qed.



(** Whatever happens, the commands issued are an initial segment of that
    sequence, the namespace creation being part of it exactly when the
    query failed: a command is left out only because the run has ended, and
    none is repeated or comes out of its turn. *)
Theorem commands_are_initial_segment
    username role namespace dry_run w fs o s' :
  create_service_account exec writable username role namespace dry_run
    (initial w fs) = (o, s') ->
  exists q rest left_out,
    calls s' = q :: rest
    /\ map c_cmd (calls s') ++ left_out
       = [["kubectl"; "get"; "namespace"; namespace]]
         ++ (if returncode (c_result q) =? 0 then []
             else [["kubectl"; "create"; "namespace"; namespace]
                   ++ (if dry_run then ["--dry-run=client"] else [])])
         ++ [["kubectl"; "create"; "serviceaccount"; username;
              "--namespace"; namespace]
             ++ (if dry_run then ["--dry-run=client"] else []);
             ["kubectl"; "create"; "rolebinding";
              username +:+ "-" +:+ role +:+ "-binding";
              "--clusterrole"; role;
              "--serviceaccount=" +:+ namespace +:+ ":" +:+ username;
              "--namespace"; namespace]
             ++ (if dry_run then ["--dry-run=client"] else []);
             ["kubectl"; "apply"; "-f"; username +:+ "-token.yaml"]
             ++ (if dry_run then ["--dry-run=client"] else [])].
Proof.
  rewrite <- secret_file_name.
  run_script.
  all: intros H; injection H as <- <-; script_simp.
  all: eexists; eexists; eexists; split; [reflexivity|]; cbn [c_result].
  all: match goal with
       | Hq : (returncode ?r =? 0) = _ |- context [returncode ?r =? 0] =>
           rewrite Hq
       end.
  all: cbn [map c_cmd app]; reflexivity.
Qed.

(** C3, as the script has it.  The descriptor that the apply call finds in
    place carries one annotation, under the key
    [kubernetes.io/service-account.name], and its value is the username. *)
Theorem descriptor_annotations
    username role namespace dry_run w fs o s' c :
  create_service_account exec writable username role namespace dry_run
    (initial w fs) = (o, s') ->
  In c (calls s') ->
  c_cmd c = create_secret_cmd username dry_run ->
  exists doc,
    c_files c !! secret_file username = Some doc
    /\ annotations doc
       = Some (PyDict [("kubernetes.io/service-account.name", PyStr username)]).
Proof.
  run_script; end_of_run H; intros Hin.
  all: cbn [In] in Hin; repeat destruct Hin as [<-|Hin]; try contradiction.
  all: cbn [c_cmd c_files]; try other_command; intros _.
  all: eexists; split; [apply lookup_insert_eq | reflexivity].
Qed.

(** C6. In a dry run every recorded call other than the namespace query
    carries [--dry-run=client] (and so do the four commands that change the
    cluster, as the script builds them); the script removes no file: from
    the apply call on the descriptor stays where it was written, and it is
    there when the run completes. *)
Theorem dry_run_simulates_and_keeps_file
    username role namespace w fs o s' :
  create_service_account exec writable username role namespace true
    (initial w fs) = (o, s') ->
  (forall c, In c (calls s') ->
             c_cmd c <> ensure_namespace_cmd namespace ->
             In "--dry-run=client" (c_cmd c))
  /\ (In "--dry-run=client" (create_ns_cmd namespace true)
      /\ In "--dry-run=client" (create_sa_cmd username namespace true)
      /\ In "--dry-run=client" (bind_role_cmd username role namespace true)
      /\ In "--dry-run=client" (create_secret_cmd username true))
  /\ (forall c, In c (calls s') ->
                c_cmd c = create_secret_cmd username true ->
                files s' = c_files c)
  /\ (o = Ret tt ->
      files s'
      = <[secret_file username := yaml_document (secret_yaml username namespace)]>
          fs).
Proof.
  assert (Hflag : forall l, In "--dry-run=client" (l ++ dry_run_flag true))
    by (intros l; apply in_or_app; right; left; reflexivity).
  run_script; end_of_run H.
  all: split; [intros c Hin Hcmd | split; [repeat split; apply Hflag|]].
  all: try (cbn [In] in Hin; repeat destruct Hin as [<-|Hin];
            try contradiction; cbn [c_cmd] in *;
            first [ apply Hflag | exfalso; apply Hcmd; reflexivity ]).
  all: split; [intros c Hin | intros Ho; first [reflexivity | discriminate Ho]].
  all: cbn [In] in Hin; repeat destruct Hin as [<-|Hin]; try contradiction.
  all: cbn [c_cmd c_files]; first [other_command | reflexivity].
Qed.

(** C7. Without the dry-run flag, the apply call finds the descriptor in
    the file [{username}-token.yaml], and when the run completes that file is
    gone: the files are those of the start less that one. *)
Theorem descriptor_present_at_apply_then_removed
    username role namespace w fs o s' :
  create_service_account exec writable username role namespace false
    (initial w fs) = (o, s') ->
  (forall c, In c (calls s') ->
             c_cmd c = create_secret_cmd username false ->
             c_files c !! (username +:+ "-token.yaml")
             = Some (yaml_document (secret_yaml username namespace)))
  /\ (o = Ret tt ->
      files s' !! (username +:+ "-token.yaml") = None
      /\ files s' = delete (username +:+ "-token.yaml") fs).
Proof.
  rewrite <- secret_file_name.
  run_script; end_of_run H.
  all: split; [intros c Hin | intros Ho; try discriminate Ho].
  all: try (cbn [In] in Hin; repeat destruct Hin as [<-|Hin];
            try contradiction; cbn [c_cmd c_files];
            first [other_command | intros _; apply lookup_insert_eq]).
  all: split; [apply lookup_delete_eq | reflexivity].
Qed.


(** A command line that passes the checks of [argparse] starts the
    provisioning with the values given, the namespace being [staging] when
    none is given. *)
Lemma main_runs_valid_input (c : cli) username role s :
  cli_username c = Some username ->
  cli_role c = Some role ->
  In role choices ->
  main exec writable c s
  = create_service_account exec writable username role
      (default "staging" (cli_namespace c)) (cli_dry_run c) s.
Proof.
  intros Hu Hr Hin. apply existsb_eqb_In in Hin.
  unfold main, parse_args, bind. rewrite Hr, Hin, Hu. reflexivity.
Qed.

(** C8. A role that is none of product-team-role, lead-developer-team-role,
    cs-team-role and operator is refused by the parser: the program stops
    with status 2 in the state it started in, so before any call of the
    tool, any line printed and any file written. *)
Theorem invalid_role_rejected (c : cli) role s :
  cli_role c = Some role ->
  ~ In role ["product-team-role"; "lead-developer-team-role"; "cs-team-role";
             "operator"] ->
  main exec writable c s = (Raise (SystemExit 2), s)
  /\ calls (snd (main exec writable c s)) = calls s
  /\ exit_status (fst (main exec writable c s)) = 2.
Proof.
  intros Hr Hnot. fold choices in Hnot.
  assert (Hmain : main exec writable c s = (Raise (SystemExit 2), s)).
  { unfold main, parse_args, bind. rewrite Hr.
    destruct (existsb (String.eqb role) choices) eqn:Hex.
    - apply existsb_eqb_In in Hex. contradiction.
    - reflexivity. }
  rewrite Hmain. repeat split.
Qed.

(** ** Beyond the claims *)

(** [run_command] (lines 8-16) never lets [CalledProcessError] out and never
    touches the files: it records exactly one call, the tool's own; on
    return code zero it gives back the stripped standard output and prints
    nothing, otherwise it prints the two lines of the report and raises
    [SystemExit(1)]. *)
Theorem run_command_contract (cmd : list string) s o s' :
  run_command exec cmd s = (o, s') ->
  files s' = files s
  /\ exists r,
      exec cmd (files s) (world s) = (r, world s')
      /\ calls s' = calls s ++ [mkCall cmd (files s) r]
      /\ (returncode r = 0 ->
          o = Ret (Text.strip (stdout r)) /\ out s' = out s)
      /\ (returncode r <> 0 ->
          o = Raise (SystemExit 1)
          /\ out s' = out s ++ ["Error running command: " +:+ Text.join " " cmd;
                                Text.strip (stderr r)]).
Proof.
  rewrite run_command_unfold.
  destruct (exec cmd (files s) (world s)) as [r w'] eqn:E.
  destruct (returncode r =? 0) eqn:Hr; return_codes.
  all: intros H; injection H as <- <-; cbn [files world out calls].
  all: split; [reflexivity|]; exists r; repeat split; try contradiction.
  all: intros Hz; contradiction.
Qed.



(** Whatever the outcome and the mode, no file other than the descriptor
    file is created, changed or removed. *)
Theorem other_files_untouched
    username role namespace dry_run w fs o s' (path : string) :
  create_service_account exec writable username role namespace dry_run
    (initial w fs) = (o, s') ->
  path <> secret_file username ->
  files s' !! path = fs !! path.
Proof.
  run_script; end_of_run H; intros Hpath.
  all: rewrite ?lookup_delete_ne, ?lookup_insert_ne by congruence.
  all: reflexivity.
Qed.

(** The clean-up of line 79 is skipped when the apply call fails: the
    descriptor file is then left in the working directory, also without the
    dry-run flag. *)
Theorem failed_apply_leaves_descriptor
    username role namespace dry_run w fs o s' c :
  create_service_account exec writable username role namespace dry_run
    (initial w fs) = (o, s') ->
  In c (calls s') ->
  c_cmd c = create_secret_cmd username dry_run ->
  returncode (c_result c) <> 0 ->
  o = Raise (SystemExit 1)
  /\ files s'
     = <[secret_file username := yaml_document (secret_yaml username namespace)]>
         fs
  /\ files s' !! secret_file username
     = Some (yaml_document (secret_yaml username namespace)).
Proof.
  run_script; end_of_run H; intros Hin.
  all: cbn [In] in Hin; repeat destruct Hin as [<-|Hin]; try contradiction.
  all: cbn [c_cmd c_result]; try other_command; intros _ Hcode.
  all: try contradiction.
  all: repeat split; apply lookup_insert_eq.
Qed.

(** A run that ends before the apply call has failed, with [SystemExit(1)]
    after a call or with the [OSError] of [open], and has written no file at
    all: the descriptor is written only once the first three steps have
    succeeded. *)
Theorem no_file_written_before_apply
    username role namespace dry_run w fs o s' :
  create_service_account exec writable username role namespace dry_run
    (initial w fs) = (o, s') ->
  (forall c, In c (calls s') ->
             c_cmd c
             <> ["kubectl"; "apply"; "-f"; username +:+ "-token.yaml"]
                ++ (if dry_run then ["--dry-run=client"] else [])) ->
  files s' = fs
  /\ (o = Raise (SystemExit 1)
      \/ (o = Raise (OSError (username +:+ "-token.yaml"))
          /\ writable (username +:+ "-token.yaml") = false)).
Proof.
  rewrite <- secret_file_name.
  run_script; end_of_run H; intros Hall.
  all: try (split; [reflexivity|]; first [left; reflexivity
                                         | right; split; reflexivity]).
  all: each_call Hall; exfalso;
       match goal with
       | Hc : _ <> _ |- _ => apply Hc; reflexivity
       end.
Qed.

(** The progress lines of a completed run: the announcement of Step 1, then
    either the line saying the namespace is there or, when the query failed,
    the report of that failure and the line saying the namespace was created,
    then the seven lines of Steps 2 to 4, and nothing else. *)
Theorem output_of_completed_run username role namespace dry_run w fs s' :
  create_service_account exec writable username role namespace dry_run
    (initial w fs) = (Ret tt, s') ->
  exists q rest,
    calls s' = q :: rest
    /\ out s'
       = ["Ensuring namespace '" +:+ namespace +:+ "' exists..."]
         ++ (if returncode (c_result q) =? 0
             then ["Namespace '" +:+ namespace +:+ "' already exists."]
             else error_report q
                  ++ ["Namespace '" +:+ namespace +:+ "' created successfully."])
         ++ ["Creating service account '" +:+ username +:+ "' in namespace '"
               +:+ namespace +:+ "'...";
             "Service account '" +:+ username +:+ "' created successfully.";
             "Binding service account '" +:+ username +:+ "' to role '"
               +:+ role +:+ "'...";
             "Service account '" +:+ username +:+ "' bound to role '"
               +:+ role +:+ "' successfully.";
             "Creating a secret for the service account '" +:+ username
               +:+ "'...";
             "Generated secret YAML file: " +:+ username +:+ "-token.yaml";
             "Secret '" +:+ username +:+ "-token' created in namespace '"
               +:+ namespace +:+ "' successfully."].
Proof.
  rewrite <- secret_file_name.
  run_script.
  all: intros H; try discriminate H; injection H as <-; script_simp.
  all: eexists; eexists; split; [reflexivity|]; cbn [c_result].
  all: match goal with
       | Hq : (returncode ?r =? 0) = _ |- context [returncode ?r =? 0] =>
           rewrite Hq
       end.
  all: unfold secret_name; rewrite append_assoc; reflexivity.
Qed.

(** The commands of a completed run, by themselves. *)
Lemma commands_of_completed_run username role namespace dry_run w fs s' :
  create_service_account exec writable username role namespace dry_run
    (initial w fs) = (Ret tt, s') ->
  map c_cmd (calls s')
  = [ensure_namespace_cmd namespace;
     create_sa_cmd username namespace dry_run;
     bind_role_cmd username role namespace dry_run;
     create_secret_cmd username dry_run]
  \/ map c_cmd (calls s')
     = [ensure_namespace_cmd namespace;
        create_ns_cmd namespace dry_run;
        create_sa_cmd username namespace dry_run;
        bind_role_cmd username role namespace dry_run;
        create_secret_cmd username dry_run].
Proof.
  run_script.
  all: intros H; try discriminate H; injection H as <-; script_simp.
  all: first [left; reflexivity | right; reflexivity].
Qed.

(** A completed dry run issues the commands of a completed real run of as
    many calls, for the same username, role and namespace: the query as it
    is, and every other command with [--dry-run=client] put at its end. *)
Theorem dry_run_commands_are_real_commands_with_flag
    username role namespace w fs s' w_dry fs_dry s_dry :
  create_service_account exec writable username role namespace false
    (initial w fs) = (Ret tt, s') ->
  create_service_account exec writable username role namespace true
    (initial w_dry fs_dry) = (Ret tt, s_dry) ->
  length (calls s_dry) = length (calls s') ->
  map c_cmd (calls s_dry)
  = ensure_namespace_cmd namespace
    :: map (fun cmd => cmd ++ ["--dry-run=client"])
         (tail (map c_cmd (calls s'))).
Proof.
  intros Hreal Hdry Hlen.
  apply commands_of_completed_run in Hreal, Hdry.
  rewrite <- (length_map c_cmd (calls s_dry)) in Hlen.
  rewrite <- (length_map c_cmd (calls s')) in Hlen.
  destruct Hreal as [Hreal|Hreal], Hdry as [Hdry|Hdry];
    rewrite Hreal, Hdry in *; try discriminate Hlen; reflexivity.
Qed.

(** What each call finds in the working directory: the files of the start,
    untouched, for every call before the apply, and for the apply those
    files with the descriptor put under its name, in place of whatever file
    had that name. *)
Theorem files_seen_by_calls username role namespace dry_run w fs o s' c :
  create_service_account exec writable username role namespace dry_run
    (initial w fs) = (o, s') ->
  In c (calls s') ->
  (c_cmd c <> create_secret_cmd username dry_run -> c_files c = fs)
  /\ (c_cmd c = create_secret_cmd username dry_run ->
      c_files c
      = <[secret_file username := yaml_document (secret_yaml username namespace)]>
          fs).
Proof.
  run_script; end_of_run H; intros Hin.
  all: cbn [In] in Hin; repeat destruct Hin as [<-|Hin]; try contradiction.
  all: cbn [c_cmd c_files]; split.
  all: first [ other_command
             | intros _; reflexivity
             | intros Hne; exfalso; apply Hne; reflexivity ].
Qed.

Lemma lstrip_no_leading_space (s : string) :
  starts_with_space (Text.lstrip s) = false.
Proof.
  induction s as [|c s IH]; [reflexivity|]. cbn [Text.lstrip].
  destruct (Text.isspace c) eqn:Hc; [exact IH | cbn; exact Hc].
Qed.

Lemma rstrip_no_trailing_space (s : string) :
  ends_with_space (Text.rstrip s) = false.
Proof.
  induction s as [|c s IH]; [reflexivity|]. cbn [Text.rstrip].
  destruct (Text.rstrip s) as [|c' kept].
  - destruct (Text.isspace c) eqn:Hc; [reflexivity | cbn; exact Hc].
  - exact IH.
Qed.

Lemma rstrip_keeps_leading (s : string) :
  starts_with_space s = false -> starts_with_space (Text.rstrip s) = false.
Proof.
  destruct s as [|c s]; [reflexivity|]. cbn [starts_with_space Text.rstrip].
  intros Hc. destruct (Text.rstrip s); [rewrite Hc|]; exact Hc.
Qed.

Lemma lstrip_of_trimmed (s : string) :
  starts_with_space s = false -> Text.lstrip s = s.
Proof.
  destruct s as [|c s]; [reflexivity|]. cbn [starts_with_space Text.lstrip].
  intros ->. reflexivity.
Qed.

Lemma rstrip_of_trimmed (s : string) :
  ends_with_space s = false -> Text.rstrip s = s.
Proof.
  induction s as [|c s IH]; [reflexivity|]. cbn [Text.rstrip].
  destruct s as [|c' s'].
  - cbn. intros ->. reflexivity.
  - intros Hend. rewrite IH by exact Hend. reflexivity.
Qed.

(** [strip], as used on the captured output in lines 12 and 15: what it
    gives neither begins nor ends with white space, and text that is already
    so is given back as it is; stripping twice is therefore stripping once. *)
Theorem strip_trims_both_ends (s : string) :
  starts_with_space (Text.strip s) = false
  /\ ends_with_space (Text.strip s) = false
  /\ Text.strip (Text.strip s) = Text.strip s.
Proof.
  assert (Hs : starts_with_space (Text.strip s) = false)
    by (apply rstrip_keeps_leading, lstrip_no_leading_space).
  assert (He : ends_with_space (Text.strip s) = false)
    by apply rstrip_no_trailing_space.
  repeat split; try assumption.
  unfold Text.strip at 1.
  rewrite (lstrip_of_trimmed _ Hs). apply rstrip_of_trimmed, He.
Qed.

(** Text without white space at either end is printed as it is. *)
Theorem strip_leaves_trimmed_text (s : string) :
  starts_with_space s = false ->
  ends_with_space s = false ->
  Text.strip s = s.
Proof.
  intros Hs He. unfold Text.strip.
  rewrite (lstrip_of_trimmed _ Hs). apply rstrip_of_trimmed, He.
Qed.

(** A command line without [--username] or without [--role] is refused the
    way a wrong role is: status 2, in the state the program started in. *)
Theorem missing_required_option_rejected (c : cli) s :
  cli_username c = None \/ cli_role c = None ->
  main exec writable c s = (Raise (SystemExit 2), s).
Proof.
  intros Hmiss. unfold main, parse_args, bind.
  destruct (cli_role c) as [role|]; [|reflexivity].
  destruct Hmiss as [Hu|Hr]; [|discriminate Hr]. rewrite Hu.
  destruct (existsb (String.eqb role) choices); reflexivity.
Qed.

End Properties.

(** * The script at work *)

Example join_kubectl :
  Text.join " " ["kubectl"; "get"; "namespace"; "staging"]
  = "kubectl get namespace staging".
Proof. reflexivity. Qed.

Example strip_stderr :
  Text.strip (String "010" "  not found " +:+ String "010" EmptyString)
  = "not found".
Proof. reflexivity. Qed.

(** The example of the specification, on a cluster where everything
    succeeds: four calls, the names, and no file left. *)
Example alice_on_ready_cluster :
  let run := alice_run Clusters.ready tt false in
  fst run = Ret tt
  /\ map c_cmd (calls (snd run))
     = [["kubectl"; "get"; "namespace"; "staging"];
        ["kubectl"; "create"; "serviceaccount"; "alice"; "--namespace"; "staging"];
        ["kubectl"; "create"; "rolebinding"; "alice-operator-binding";
         "--clusterrole"; "operator"; "--serviceaccount=staging:alice";
         "--namespace"; "staging"];
        ["kubectl"; "apply"; "-f"; "alice-token.yaml"]]
  /\ files (snd run) = ∅.
Proof. vm_compute. repeat split. Qed.

(** The same with the dry-run flag on a cluster without the namespace: five
    calls, the four that change the cluster with the simulate-only option,
    no namespace created, and the descriptor left behind. *)
Example alice_dry_run_on_fresh_cluster :
  let run := alice_run Clusters.fresh [] true in
  fst run = Ret tt
  /\ map c_cmd (calls (snd run))
     = [["kubectl"; "get"; "namespace"; "staging"];
        ["kubectl"; "create"; "namespace"; "staging"; "--dry-run=client"];
        ["kubectl"; "create"; "serviceaccount"; "alice"; "--namespace"; "staging";
         "--dry-run=client"];
        ["kubectl"; "create"; "rolebinding"; "alice-operator-binding";
         "--clusterrole"; "operator"; "--serviceaccount=staging:alice";
         "--namespace"; "staging"; "--dry-run=client"];
        ["kubectl"; "apply"; "-f"; "alice-token.yaml"; "--dry-run=client"]]
  /\ world (snd run) = []
  /\ map_to_list (files (snd run))
     = [("alice-token.yaml", yaml_document (secret_yaml "alice" "staging"))].
Proof. vm_compute. repeat split. Qed.

(** ** C1 *)



(** ** C2 *)

Lemma failed_call_terminates_run_witness :
  let run := alice_run Clusters.account_taken tt false in
  let c := mkCall (create_sa_cmd "alice" "staging" false) ∅
             (Clusters.failed "error: failed to create serviceaccount: already exists") in
  @nil call = []
  /\ fst run = Raise (SystemExit 1)
  /\ exit_status (fst run) = 1
  /\ files (snd run) = c_files c
  /\ exists printed, out (snd run) = printed ++ error_report c.
Proof.
  apply (failed_call_terminates_run Clusters.account_taken Directories.anywhere
           "alice" "operator" "staging" false tt ∅
           (fst (alice_run Clusters.account_taken tt false))
           (snd (alice_run Clusters.account_taken tt false))
           [mkCall (ensure_namespace_cmd "staging") ∅ Clusters.ok]).
  - vm_compute. reflexivity.
  - vm_compute. reflexivity.
  - intros Heq. discriminate Heq.
  - intros Heq. discriminate Heq.
Defined.

(** ** C3 *)

(** C3 as stated fails: for [alice] the annotation mapping of the descriptor
    has the key [kubernetes.io/service-account.name]; it has no key
    [service-account-name]. *)
Lemma annotation_key_is_not_service_account_name :
  annotations (secret_yaml "alice" "staging")
  = Some (PyDict [("kubernetes.io/service-account.name", PyStr "alice")])
  /\ annotations (secret_yaml "alice" "staging")
     <> Some (PyDict [("service-account-name", PyStr "alice")])
  /\ (forall ann, annotations (secret_yaml "alice" "staging") = Some ann ->
                  dict_get "service-account-name" ann = None).
Proof.
  split; [reflexivity|]. split; [discriminate|].
  intros ann Hann. injection Hann as <-. reflexivity.
Qed.

Lemma descriptor_annotations_witness :
  let c := mkCall (create_secret_cmd "alice" false)
             {[ secret_file "alice" := yaml_document (secret_yaml "alice" "staging") ]}
             Clusters.ok in
  exists doc,
    c_files c !! secret_file "alice" = Some doc
    /\ annotations doc
       = Some (PyDict [("kubernetes.io/service-account.name", PyStr "alice")]).
Proof.
  apply (descriptor_annotations Clusters.ready Directories.anywhere
           "alice" "operator" "staging" false tt ∅
           (fst (alice_run Clusters.ready tt false))
           (snd (alice_run Clusters.ready tt false))).
  - vm_compute. reflexivity.
  - vm_compute. do 3 right. left. reflexivity.
  - reflexivity.
Defined.

(** ** C4 *)



Lemma namespace_created_iff_query_fails_witness :
  let run := alice_run Clusters.fresh [] false in
  exists q rest,
    calls (snd run) = q :: rest
    /\ c_cmd q = ["kubectl"; "get"; "namespace"; "staging"]
    /\ (returncode (c_result q) <> 0 ->
        exists c rest',
          rest = c :: rest'
          /\ c_cmd c
             = ["kubectl"; "create"; "namespace"; "staging"]
               ++ (if false then ["--dry-run=client"] else [])
          /\ is_create_namespace (c_cmd c) = true
          /\ (returncode (c_result c) = 0 ->
              exists c' rest'',
                rest' = c' :: rest''
                /\ c_cmd c'
                   = ["kubectl"; "create"; "serviceaccount"; "alice";
                      "--namespace"; "staging"]
                     ++ (if false then ["--dry-run=client"] else [])))
    /\ (returncode (c_result q) = 0 ->
        Forall (fun c => is_create_namespace (c_cmd c) = false) (q :: rest)).
Proof.
  apply (namespace_created_iff_query_fails Clusters.fresh Directories.anywhere
           "alice" "operator" "staging" false [] ∅
           (fst (alice_run Clusters.fresh [] false))).
  vm_compute. reflexivity.
Defined.

(** On the fresh cluster the namespace is created, once. *)
Example fresh_cluster_gets_namespace :
  world (snd (alice_run Clusters.fresh [] false)) = ["staging"]
  /\ filter (fun c => is_create_namespace (c_cmd c))
       (calls (snd (alice_run Clusters.fresh [] false)))
     = [mkCall (create_ns_cmd "staging" false) ∅ Clusters.ok].
Proof. vm_compute. repeat split. Qed.

(** On a cluster that has the namespace no creation is issued. *)
Example ready_cluster_keeps_namespace :
  filter (fun c => is_create_namespace (c_cmd c))
    (calls (snd (alice_run Clusters.fresh ["staging"] false)))
  = [].
Proof. vm_compute. reflexivity. Qed.

(** ** C6 *)

Lemma dry_run_simulates_and_keeps_file_witness :
  let run := alice_run Clusters.fresh [] true in
  (forall c, In c (calls (snd run)) ->
             c_cmd c <> ensure_namespace_cmd "staging" ->
             In "--dry-run=client" (c_cmd c))
  /\ (In "--dry-run=client" (create_ns_cmd "staging" true)
      /\ In "--dry-run=client" (create_sa_cmd "alice" "staging" true)
      /\ In "--dry-run=client" (bind_role_cmd "alice" "operator" "staging" true)
      /\ In "--dry-run=client" (create_secret_cmd "alice" true))
  /\ (forall c, In c (calls (snd run)) ->
                c_cmd c = create_secret_cmd "alice" true ->
                files (snd run) = c_files c)
  /\ (fst run = Ret tt ->
      files (snd run)
      = <[secret_file "alice" := yaml_document (secret_yaml "alice" "staging")]>
          ∅).
Proof.
  apply (dry_run_simulates_and_keeps_file Clusters.fresh Directories.anywhere
           "alice" "operator" "staging" [] ∅
           (fst (alice_run Clusters.fresh [] true))).
  vm_compute. reflexivity.
Defined.

(** ** C7 *)

Lemma descriptor_present_at_apply_then_removed_witness :
  let run := alice_run Clusters.ready tt false in
  (forall c, In c (calls (snd run)) ->
             c_cmd c = create_secret_cmd "alice" false ->
             c_files c !! ("alice" +:+ "-token.yaml")
             = Some (yaml_document (secret_yaml "alice" "staging")))
  /\ (fst run = Ret tt ->
      files (snd run) !! ("alice" +:+ "-token.yaml") = None
      /\ files (snd run) = delete ("alice" +:+ "-token.yaml") ∅).
Proof.
  apply (descriptor_present_at_apply_then_removed Clusters.ready Directories.anywhere
           "alice" "operator" "staging" tt ∅
           (fst (alice_run Clusters.ready tt false))).
  vm_compute. reflexivity.
Defined.

(** The two premises met in that run: the apply call is there and sees the
    file, and the run completes. *)
Example apply_call_sees_descriptor :
  let run := alice_run Clusters.ready tt false in
  fst run = Ret tt
  /\ last (calls (snd run))
     = Some (mkCall (create_secret_cmd "alice" false)
               {[ "alice-token.yaml" := yaml_document (secret_yaml "alice" "staging") ]}
               Clusters.ok)
  /\ files (snd run) !! "alice-token.yaml" = None.
Proof. vm_compute. repeat split. Qed.

(** ** C8 *)

Lemma invalid_role_rejected_witness :
  let c := mkCli (Some "alice") (Some "admin") None false in
  main Clusters.ready Directories.anywhere c (initial tt ∅)
  = (Raise (SystemExit 2), initial tt ∅)
  /\ calls (snd (main Clusters.ready Directories.anywhere c (initial tt ∅)))
     = calls (initial tt ∅)
  /\ exit_status
       (fst (main Clusters.ready Directories.anywhere c (initial tt ∅)))
     = 2.
Proof.
  apply (invalid_role_rejected Clusters.ready Directories.anywhere
           (mkCli (Some "alice") (Some "admin") None false) "admin").
  - reflexivity.
  - intros Hin. apply existsb_eqb_In in Hin. discriminate Hin.
Defined.

(** A valid command line without [--namespace] provisions in [staging]. *)
Example valid_command_line_runs :
  main Clusters.ready Directories.anywhere
    (mkCli (Some "alice") (Some "operator") None false) (initial tt ∅)
  = alice_run Clusters.ready tt false.
Proof. vm_compute. reflexivity. Qed.


(** The descriptor as the file holds it, and the commands of Steps 3 and 4,
    in that run. *)
Example alice_binding_and_descriptor :
  let run := alice_run Clusters.ready tt true in
  map c_cmd (skipn 2 (calls (snd run)))
  = [["kubectl"; "create"; "rolebinding"; "alice-operator-binding";
      "--clusterrole"; "operator"; "--serviceaccount=staging:alice";
      "--namespace"; "staging"; "--dry-run=client"];
     ["kubectl"; "apply"; "-f"; "alice-token.yaml"; "--dry-run=client"]]
  /\ files (snd run) !! "alice-token.yaml"
     = Some (PyDict
               [("apiVersion", PyStr "v1");
                ("kind", PyStr "Secret");
                ("metadata",
                 PyDict
                   [("annotations",
                     PyDict [("kubernetes.io/service-account.name",
                              PyStr "alice")]);
                    ("name", PyStr "alice-token");
                    ("namespace", PyStr "staging")]);
                ("type", PyStr "kubernetes.io/service-account-token")]).
Proof. vm_compute. split; reflexivity. Qed.

(** ** C10 *)

Lemma query_failure_is_reported_witness :
  let run := alice_run Clusters.forbidden tt false in
  let q := mkCall (ensure_namespace_cmd "staging") ∅
             (Clusters.failed "Error from server (Forbidden)") in
  (exists later,
     out (snd run)
     = ("Ensuring namespace '" +:+ "staging" +:+ "' exists...")
       :: error_report q ++ later)
  /\ error_report q
     = ["Error running command: kubectl get namespace " +:+ "staging";
        Text.strip (stderr (c_result q))]
  /\ exists c rest',
       tail (calls (snd run)) = c :: rest'
       /\ c_cmd c = create_ns_cmd "staging" false.
Proof.
  apply (query_failure_is_reported Clusters.forbidden Directories.anywhere
           "alice" "operator" "staging" false tt ∅
           (fst (alice_run Clusters.forbidden tt false))
           (snd (alice_run Clusters.forbidden tt false))).
  - vm_compute. reflexivity.
  - vm_compute. reflexivity.
  - intros Heq. discriminate Heq.
Defined.

(** What is printed when the query fails on a missing namespace. *)
Example fresh_cluster_output :
  firstn 4 (out (snd (alice_run Clusters.fresh [] false)))
  = ["Ensuring namespace 'staging' exists...";
     "Error running command: kubectl get namespace staging";
     "Error from server (NotFound): namespaces staging not found";
     "Namespace 'staging' created successfully."].
Proof. vm_compute. reflexivity. Qed.

(** * Beyond the claims, at work *)

Lemma run_command_contract_witness :
  let cmd := create_sa_cmd "alice" "staging" false in
  let run := run_command Clusters.account_taken cmd (initial tt ∅) in
  files (snd run) = files (initial tt ∅)
  /\ exists r,
      Clusters.account_taken cmd (files (initial tt ∅)) (world (initial tt ∅))
      = (r, world (snd run))
      /\ calls (snd run)
         = calls (initial tt ∅) ++ [mkCall cmd (files (initial tt ∅)) r]
      /\ (returncode r = 0 ->
          fst run = Ret (Text.strip (stdout r))
          /\ out (snd run) = out (initial tt ∅))
      /\ (returncode r <> 0 ->
          fst run = Raise (SystemExit 1)
          /\ out (snd run)
             = out (initial tt ∅)
               ++ ["Error running command: " +:+ Text.join " " cmd;
                   Text.strip (stderr r)]).
Proof.
  apply (run_command_contract Clusters.account_taken
           (create_sa_cmd "alice" "staging" false) (initial tt ∅)).
  vm_compute. reflexivity.
Defined.


Example team_alice_stops_at_the_write :
  let run := create_service_account Clusters.ready Directories.flat
               "team/alice" "operator" "staging" false (initial tt ∅) in
  fst run = Raise (OSError "team/alice-token.yaml")
  /\ length (calls (snd run)) = 3%nat
  /\ files (snd run) = ∅.
Proof. vm_compute. repeat split. Qed.


(** A file that was there before is still there, with what it held, after a
    run that removed the descriptor. *)
Lemma other_files_untouched_witness :
  let fs : gmap string py_value := {[ "notes.txt" := PyStr "keep" ]} in
  files (snd (create_service_account Clusters.ready Directories.anywhere
                "alice" "operator" "staging" false (initial tt fs)))
    !! "notes.txt"
  = fs !! "notes.txt".
Proof.
  apply (other_files_untouched Clusters.ready Directories.anywhere
           "alice" "operator" "staging" false tt
           {[ "notes.txt" := PyStr "keep" ]}
           (fst (create_service_account Clusters.ready Directories.anywhere
                   "alice" "operator" "staging" false
                   (initial tt {[ "notes.txt" := PyStr "keep" ]})))).
  - vm_compute. reflexivity.
  - intros Heq. discriminate Heq.
Defined.

Lemma failed_apply_leaves_descriptor_witness :
  let run := alice_run Clusters.apply_refused tt false in
  fst run = Raise (SystemExit 1)
  /\ files (snd run)
     = <[secret_file "alice" := yaml_document (secret_yaml "alice" "staging")]> ∅
  /\ files (snd run) !! secret_file "alice"
     = Some (yaml_document (secret_yaml "alice" "staging")).
Proof.
  apply (failed_apply_leaves_descriptor Clusters.apply_refused Directories.anywhere
           "alice" "operator" "staging" false tt ∅
           (fst (alice_run Clusters.apply_refused tt false))
           (snd (alice_run Clusters.apply_refused tt false))
           (mkCall (create_secret_cmd "alice" false)
              {[ secret_file "alice" := yaml_document (secret_yaml "alice" "staging") ]}
              (Clusters.failed "error: unable to apply the secret"))).
  - vm_compute. reflexivity.
  - vm_compute. do 3 right. left. reflexivity.
  - reflexivity.
  - intros Heq. discriminate Heq.
Defined.

Lemma no_file_written_before_apply_witness :
  let run := alice_run Clusters.account_taken tt false in
  files (snd run) = ∅
  /\ (fst run = Raise (SystemExit 1)
      \/ (fst run = Raise (OSError ("alice" +:+ "-token.yaml"))
          /\ Directories.anywhere ("alice" +:+ "-token.yaml") = false)).
Proof.
  apply (no_file_written_before_apply Clusters.account_taken
           Directories.anywhere
           "alice" "operator" "staging" false tt ∅
           (fst (alice_run Clusters.account_taken tt false))
           (snd (alice_run Clusters.account_taken tt false))).
  - vm_compute. reflexivity.
  - apply (proj1 (List.Forall_forall
             (fun c => c_cmd c
                       <> ["kubectl"; "apply"; "-f"; "alice" +:+ "-token.yaml"]
                          ++ (if false then ["--dry-run=client"] else [])) _)).
    repeat constructor; intros Heq; discriminate Heq.
Defined.

Lemma commands_are_initial_segment_witness :
  let run := alice_run Clusters.forbidden tt false in
  exists q rest left_out,
    calls (snd run) = q :: rest
    /\ map c_cmd (calls (snd run)) ++ left_out
       = [["kubectl"; "get"; "namespace"; "staging"]]
         ++ (if returncode (c_result q) =? 0 then []
             else [["kubectl"; "create"; "namespace"; "staging"]
                   ++ (if false then ["--dry-run=client"] else [])])
         ++ [["kubectl"; "create"; "serviceaccount"; "alice";
              "--namespace"; "staging"]
             ++ (if false then ["--dry-run=client"] else []);
             ["kubectl"; "create"; "rolebinding";
              "alice" +:+ "-" +:+ "operator" +:+ "-binding";
              "--clusterrole"; "operator";
              "--serviceaccount=" +:+ "staging" +:+ ":" +:+ "alice";
              "--namespace"; "staging"]
             ++ (if false then ["--dry-run=client"] else []);
             ["kubectl"; "apply"; "-f"; "alice" +:+ "-token.yaml"]
             ++ (if false then ["--dry-run=client"] else [])].
Proof.
  apply (commands_are_initial_segment Clusters.forbidden Directories.anywhere
           "alice" "operator" "staging" false tt ∅
           (fst (alice_run Clusters.forbidden tt false))).
  vm_compute. reflexivity.
Defined.

Lemma output_of_completed_run_witness :
  let run := alice_run Clusters.fresh [] false in
  exists q rest,
    calls (snd run) = q :: rest
    /\ out (snd run)
       = ["Ensuring namespace '" +:+ "staging" +:+ "' exists..."]
         ++ (if returncode (c_result q) =? 0
             then ["Namespace '" +:+ "staging" +:+ "' already exists."]
             else error_report q
                  ++ ["Namespace '" +:+ "staging" +:+ "' created successfully."])
         ++ ["Creating service account '" +:+ "alice" +:+ "' in namespace '"
               +:+ "staging" +:+ "'...";
             "Service account '" +:+ "alice" +:+ "' created successfully.";
             "Binding service account '" +:+ "alice" +:+ "' to role '"
               +:+ "operator" +:+ "'...";
             "Service account '" +:+ "alice" +:+ "' bound to role '"
               +:+ "operator" +:+ "' successfully.";
             "Creating a secret for the service account '" +:+ "alice"
               +:+ "'...";
             "Generated secret YAML file: " +:+ "alice" +:+ "-token.yaml";
             "Secret '" +:+ "alice" +:+ "-token' created in namespace '"
               +:+ "staging" +:+ "' successfully."].
Proof.
  apply (output_of_completed_run Clusters.fresh Directories.anywhere
           "alice" "operator" "staging" false [] ∅).
  vm_compute. reflexivity.
Defined.

Lemma dry_run_commands_are_real_commands_with_flag_witness :
  map c_cmd (calls (snd (alice_run Clusters.ready tt true)))
  = ensure_namespace_cmd "staging"
    :: map (fun cmd => cmd ++ ["--dry-run=client"])
         (tail (map c_cmd (calls (snd (alice_run Clusters.ready tt false))))).
Proof.
  apply (dry_run_commands_are_real_commands_with_flag Clusters.ready Directories.anywhere
           "alice" "operator" "staging" tt ∅ _ tt ∅).
  - vm_compute. reflexivity.
  - vm_compute. reflexivity.
  - vm_compute. reflexivity.
Defined.

Lemma files_seen_by_calls_witness :
  let fs : gmap string py_value := {[ "alice-token.yaml" := PyStr "old" ]} in
  let c := mkCall (create_secret_cmd "alice" true)
             {[ "alice-token.yaml" := yaml_document (secret_yaml "alice" "staging") ]}
             Clusters.ok in
  (c_cmd c <> create_secret_cmd "alice" true -> c_files c = fs)
  /\ (c_cmd c = create_secret_cmd "alice" true ->
      c_files c = <[secret_file "alice" := yaml_document (secret_yaml "alice" "staging")]> fs).
Proof.
  apply (files_seen_by_calls Clusters.ready Directories.anywhere
           "alice" "operator" "staging" true tt
           {[ "alice-token.yaml" := PyStr "old" ]}
           (fst (create_service_account Clusters.ready Directories.anywhere
                   "alice" "operator" "staging" true
                   (initial tt {[ "alice-token.yaml" := PyStr "old" ]})))
           (snd (create_service_account Clusters.ready Directories.anywhere
                   "alice" "operator" "staging" true
                   (initial tt {[ "alice-token.yaml" := PyStr "old" ]})))).
  - vm_compute. reflexivity.
  - vm_compute. do 3 right. left. reflexivity.
Defined.

Lemma strip_leaves_trimmed_text_witness :
  Text.strip "namespaces staging not found" = "namespaces staging not found".
Proof.
  apply (strip_leaves_trimmed_text "namespaces staging not found");
    reflexivity.
Defined.

Lemma missing_required_option_rejected_witness :
  main Clusters.ready Directories.anywhere
    (mkCli None (Some "operator") None false) (initial tt ∅)
  = (Raise (SystemExit 2), initial tt ∅).
Proof.
  apply (missing_required_option_rejected Clusters.ready Directories.anywhere
           (mkCli None (Some "operator") None false)).
  left. reflexivity.
Defined.
